(** * RCTutils: CCDB/read_encoded_flags.C

    A shallow embedding of the ROOT macro [read_encoded_flags] and the
    properties of its observable behaviour: the query timestamp, the
    metadata filter, the text written to [std::cout] and [std::cerr], the
    calls made on the CCDB manager and the way exceptions leave the macro.

    Conventions.
    - [int] values are integers of [Z]; [uint64_t] and [uint32_t] values
      are naturals of [N], with the wrap-around of the addition written out.
    - [std::map<std::string, std::string>] is a [gmap string string];
      [std::map<uint64_t, uint32_t>] is a [gmap N N] whose iteration visits
      the entries by ascending key.
    - The macro runs in a small state-and-exception monad: the state holds
      the two console streams and the log of external calls, the result is
      either a normal completion or an exception in flight. *)

From Stdlib Require Import ZArith NArith Ascii String Lia.
From Stdlib Require Import DecimalString DecimalN DecimalZ.
From stdpp Require Import gmap strings list fin_maps sorting.

(* ===================================================================== *)
(** ** Text produced by the C++ standard library *)
(* ===================================================================== *)

(** The line feed written by ["\n"] and by [std::endl]. *)
Definition newline : ascii := ascii_of_nat 10.
Definition endl : string := String newline EmptyString.

(** [std::to_string(int)] and [operator<<(int)]: signed decimal. *)
Definition to_string (z : Z) : string :=
  NilZero.string_of_int (Z.to_int z).

(** [operator<<] on [uint64_t] and [uint32_t]: unsigned decimal. *)
Definition to_string_u (n : N) : string :=
  NilZero.string_of_uint (N.to_uint n).

(** Reading a decimal numeral back, used to state what the printers mean. *)
Definition of_string (s : string) : option Z :=
  Z.of_int <$> NilZero.int_of_string s.
Definition of_string_u (s : string) : option N :=
  N.of_uint <$> NilZero.uint_of_string s.

(** [std::bitset<W>(v)] streamed with [operator<<]: the W low bits of [v],
    most significant first, as the characters '0' and '1'. *)
Definition bit_char (b : bool) : ascii :=
  if b then "1"%char else "0"%char.

Fixpoint bitset_to_string (width : nat) (v : N) : string :=
  match width with
  | O => EmptyString
  | S w => String (bit_char (N.testbit v (N.of_nat w))) (bitset_to_string w v)
  end.

Definition bitset32 (v : N) : string := bitset_to_string 32 v.

(** The number denoted by a string of binary digits (any character other
    than '1' counts as a zero digit). *)
Fixpoint binary_value_from (acc : N) (s : string) : N :=
  match s with
  | EmptyString => acc
  | String c rest =>
      binary_value_from (2 * acc + (if Ascii.eqb c "1" then 1 else 0))%N rest
  end.

Definition binary_value (s : string) : N := binary_value_from 0%N s.

(** [s] is made of the characters '0' and '1' only. *)
Fixpoint is_binary (s : string) : bool :=
  match s with
  | EmptyString => true
  | String c rest => (Ascii.eqb c "0" || Ascii.eqb c "1") && is_binary rest
  end.

(** Characters and lines of a stream. *)
Fixpoint count_char (c : ascii) (s : string) : nat :=
  match s with
  | EmptyString => 0
  | String d rest => (if Ascii.eqb c d then 1 else 0) + count_char c rest
  end.

(** Number of complete (newline-terminated) lines in a stream. *)
Definition line_count (s : string) : nat := count_char newline s.

(** [s] is a single line: some text free of line feeds, then one line feed. *)
Definition single_line (s : string) : Prop :=
  ∃ body, s = body +:+ endl ∧ line_count body = 0.

(** [needle] occurs inside [hay]. *)
Definition mentions (hay needle : string) : Prop :=
  ∃ before after, hay = before +:+ needle +:+ after.

Fixpoint concat_lines (ls : list string) : string :=
  match ls with
  | [] => EmptyString
  | l :: rest => l +:+ concat_lines rest
  end.

(* ===================================================================== *)
(** ** Fixed-width arithmetic *)
(* ===================================================================== *)

Definition UINT64_MODULUS : N := (2 ^ 64)%N.
Definition UINT32_MODULUS : N := (2 ^ 32)%N.

Definition is_uint64 (n : N) : Prop := (n < UINT64_MODULUS)%N.
Definition is_uint32 (n : N) : Prop := (n < UINT32_MODULUS)%N.

(** Addition of two [uint64_t]: modulo 2^64. *)
Definition add_u64 (a b : N) : N := ((a + b) mod UINT64_MODULUS)%N.

(** Modelled from the spec: the declaration of
    [BasicCCDBManager::getRunDuration] (header [CCDB/BasicCCDBManager.h]) is
    not part of the sources; the spec gives the time window as a pair of
    uint64 timestamps, so both members of [soreor] are unsigned 64-bit and
    line 21 is an unsigned addition followed by an unsigned division:
    [uint64_t ts = (soreor.first + soreor.second) / 2]. *)
Definition query_timestamp (soreor : N * N) : N :=
  (add_u64 soreor.1 soreor.2 / 2)%N.

(* ===================================================================== *)
(** ** std::map *)
(* ===================================================================== *)

(** Lines 24-28: the four [operator[]] assignments on an empty map. *)
Definition build_metadata (run : Z) (passName periodName : string)
    (versionNumber : Z) : gmap string string :=
  <["version" := to_string versionNumber]>
    (<["periodName" := periodName]>
       (<["passName" := passName]>
          (<["run" := to_string run]> ∅))).

(** Order in which a range-for visits a [std::map<uint64_t, uint32_t>]:
    by ascending key. *)
Definition key_le (a b : N * N) : Prop := (a.1 ≤ b.1)%N.

#[local] Instance key_le_dec (a b : N * N) : Decision (key_le a b) :=
  decide (a.1 ≤ b.1)%N.

Definition map_iteration (m : gmap N N) : list (N * N) :=
  merge_sort key_le (map_to_list m).

(* ===================================================================== *)
(** ** The process: console, external calls, exceptions *)
(* ===================================================================== *)

(** What a [throw] can carry: an object of a class derived from
    [std::exception], with its [what()] text, or an object of any other
    type (an [int], a [const char*], a ROOT object ...). *)
Inductive thrown : Type :=
  | StdException (what : string)
  | ForeignObject (description : string).

(** How an evaluation ends. *)
Inductive completion (A : Type) : Type :=
  | Normal (value : A)
  | Raised (e : thrown).
Arguments Normal {A} value.
Arguments Raised {A} e.

(** The collaborators of the macro. Each is called at most once per run,
    so its behaviour is a function of its arguments. *)
Record Externals : Type := {
  (** [gSystem->Load(lib)]: negative on failure. *)
  gSystem_Load : string → Z;
  (** [ccdb.getRunDuration(run)] *)
  getRunDuration : Z → completion (N * N);
  (** [ccdb.getSpecific<std::map<uint64_t, uint32_t>>(path, ts, metadata)]:
      a pointer to the object, null when there is none. *)
  getSpecific :
    string → N → gmap string string → completion (option (gmap N N));
}.

(** Log of the calls that leave the macro. *)
Inductive call : Type :=
  | CallLoad (lib : string)
  | CallInstance
  | CallGetRunDuration (run : Z)
  | CallGetSpecific (path : string) (ts : N) (metadata : gmap string string).

(** The calls made on the CCDB manager (everything but the library load). *)
Definition is_store_call (c : call) : bool :=
  match c with
  | CallLoad _ => false
  | CallInstance | CallGetRunDuration _ | CallGetSpecific _ _ _ => true
  end.

Record process : Type := {
  cout : string;
  cerr : string;
  calls : list call;
}.

Definition start : process :=
  {| cout := EmptyString; cerr := EmptyString; calls := [] |}.

Definition store_call_count (p : process) : nat :=
  length (filter (λ c, is_store_call c = true) (calls p)).

(** State and exception monad. *)
Definition Exec (A : Type) : Type := process → process * completion A.

#[global] Instance exec_ret : MRet Exec := λ A a p, (p, Normal a).

#[global] Instance exec_bind : MBind Exec := λ A B k m p,
  match m p with
  | (p', Normal a) => k a p'
  | (p', Raised e) => (p', Raised e)
  end.

(** [std::cout << s] and [std::cerr << s]. *)
Definition cout_put (s : string) : Exec unit :=
  λ p, ({| cout := cout p +:+ s; cerr := cerr p; calls := calls p |},
        Normal tt).

Definition cerr_put (s : string) : Exec unit :=
  λ p, ({| cout := cout p; cerr := cerr p +:+ s; calls := calls p |},
        Normal tt).

Definition log_call (c : call) : Exec unit :=
  λ p, ({| cout := cout p; cerr := cerr p; calls := calls p ++ [c] |},
        Normal tt).

(** A call whose outcome the outside world decides. *)
Definition outcome {A} (c : completion A) : Exec A := λ p, (p, c).

(** [try { body } catch (const std::exception& ex) { handler }]: only
    objects derived from [std::exception] match the handler; anything else
    keeps unwinding. *)
Definition try_catch_std_exception {A} (body : Exec A)
    (handler : string → Exec A) : Exec A :=
  λ p, match body p with
       | (p', Normal a) => (p', Normal a)
       | (p', Raised (StdException what)) => handler what p'
       | (p', Raised (ForeignObject d)) => (p', Raised (ForeignObject d))
       end.

(** A range-for over a sequence. *)
Fixpoint for_each {A} (l : list A) (body : A → Exec unit) : Exec unit :=
  match l with
  | [] => mret tt
  | x :: rest => body x;; for_each rest body
  end.

(* ===================================================================== *)
(** ** The macro *)
(* ===================================================================== *)

Definition default_ccdbPath : string := "Users/j/jian/RCT".

(** Line 12. *)
Definition load_error_line : string :=
  "Error: Failed to load dict_ccdb.so" +:+ endl.

(** Line 36. *)
Definition not_found_line (run : Z) : string :=
  "Error: Unable to retrieve encoded flags for run " +:+ to_string run
    +:+ " from CCDB." +:+ endl.

(** Line 41. *)
Definition header_line (run : Z) : string :=
  "Encoded Flags for Run " +:+ to_string run +:+ ":" +:+ endl.

(** Lines 43-44. *)
Definition flag_line (entry : N * N) : string :=
  let '(timestamp, bitmask) := entry in
  "  Timestamp: " +:+ to_string_u timestamp
    +:+ ", Bitmask: " +:+ bitset32 bitmask
    +:+ " (" +:+ to_string_u bitmask +:+ ")" +:+ endl.

(** Line 47. *)
Definition exception_line (what : string) : string :=
  "Error: Exception occurred while retrieving CCDB object: " +:+ what
    +:+ endl.

Section Macro.
Variable world : Externals.

Definition read_encoded_flags (run : Z) (passName periodName : string)
    (versionNumber : Z) (ccdbPath : string) : Exec unit :=
  (* Load the dictionary *)
  log_call (CallLoad "dict_ccdb.so");;
  if (gSystem_Load world "dict_ccdb.so" <? 0)%Z then
    cerr_put load_error_line
  else
    (* Get the CCDB manager instance *)
    log_call CallInstance;;
    (* Get start-of-run and end-of-run timestamps *)
    log_call (CallGetRunDuration run);;
    soreor ← outcome (getRunDuration world run);
    let ts := query_timestamp soreor in
    let metadata := build_metadata run passName periodName versionNumber in
    (* Retrieve the encoded flags *)
    try_catch_std_exception
      (log_call (CallGetSpecific ccdbPath ts metadata);;
       encodedFlags ← outcome (getSpecific world ccdbPath ts metadata);
       match encodedFlags with
       | None => cerr_put (not_found_line run)
       | Some flags =>
           cout_put (header_line run);;
           for_each (map_iteration flags)
             (λ entry, cout_put (flag_line entry))
       end)
      (λ what, cerr_put (exception_line what)).

End Macro.

(** The lines on [std::cout] after the header, for a retrieved mapping. *)
Definition flag_lines (flags : gmap N N) : list string :=
  flag_line <$> map_iteration flags.

(** One invocation, observed from a fresh console. *)
Definition invoke (world : Externals) (run : Z) (passName periodName : string)
    (versionNumber : Z) (ccdbPath : string) : process * completion unit :=
  read_encoded_flags world run passName periodName versionNumber ccdbPath
    start.

(** The calls of an invocation, once the manager has been reached and the
    run duration asked for. *)
Definition calls_to_duration (run : Z) : list call :=
  [CallLoad "dict_ccdb.so"; CallInstance; CallGetRunDuration run].

Definition calls_to_lookup (run : Z) (passName periodName : string)
    (versionNumber : Z) (ccdbPath : string) (soreor : N * N) : list call :=
  calls_to_duration run
    ++ [CallGetSpecific ccdbPath (query_timestamp soreor)
          (build_metadata run passName periodName versionNumber)].

(** A world with scripted answers, to run the macro on concrete inputs. *)
Definition scripted (load : Z) (duration : completion (N * N))
    (answer : completion (option (gmap N N))) : Externals :=
  {| gSystem_Load := λ _, load;
     getRunDuration := λ _, duration;
     getSpecific := λ _ _ _, answer |}.

Definition sample_flags : gmap N N :=
  <[300%N := 5%N]> (<[7%N := 4294967295%N]> (<[1000%N := 0%N]> ∅)).

(** Character classes of the printed text. *)
Fixpoint all_chars (P : ascii → bool) (s : string) : bool :=
  match s with
  | EmptyString => true
  | String c rest => P c && all_chars P rest
  end.

(** The characters of a numeral: the ten digits and the minus sign. *)
Definition is_numeral_char (c : ascii) : bool :=
  let n := N_of_ascii c in
  ((48 <=? n) && (n <=? 57))%N || Ascii.eqb c "-".

Definition not_newline (c : ascii) : bool := negb (Ascii.eqb newline c).

(** The lookups among the calls of a log. *)
Definition is_lookup_call (c : call) : bool :=
  match c with
  | CallGetSpecific _ _ _ => true
  | _ => false
  end.

Definition lookup_count (p : process) : nat :=
  length (filter (λ c, is_lookup_call c = true) (calls p)).

(* ===================================================================== *)
(** ** Facts about the printed text *)
(* ===================================================================== *)

Section Text.

Lemma append_nil (t : string) : EmptyString +:+ t = t.
Proof. reflexivity. Qed.

Lemma append_cons (c : ascii) (s t : string) :
  String c s +:+ t = String c (s +:+ t).
Proof. reflexivity. Qed.

Lemma append_empty_r (s : string) : s +:+ EmptyString = s.
Proof.
  induction s as [|c s IH]; [done|]. by rewrite append_cons, IH.
Qed.

Lemma append_assoc (s t u : string) : (s +:+ t) +:+ u = s +:+ t +:+ u.
Proof.
  induction s as [|c s IH]; [done|]. by rewrite !append_cons, IH.
Qed.

Lemma append_length (s t : string) :
  String.length (s +:+ t) = String.length s + String.length t.
Proof.
  induction s as [|c s IH]; [done|]. rewrite append_cons. simpl.
  by rewrite IH.
Qed.

Lemma count_char_append (c : ascii) (s t : string) :
  count_char c (s +:+ t) = count_char c s + count_char c t.
Proof.
  induction s as [|d s IH]; [done|]. rewrite append_cons. simpl.
  rewrite IH. lia.
Qed.

Lemma line_count_append (s t : string) :
  line_count (s +:+ t) = line_count s + line_count t.
Proof. apply count_char_append. Qed.

Lemma line_count_endl : line_count endl = 1.
Proof. reflexivity. Qed.

(** Decimal numerals hold digits and at most a sign, never a line feed. *)
Lemma line_count_digits (d : Decimal.uint) :
  line_count (NilEmpty.string_of_uint d) = 0.
Proof. induction d; simpl; auto. Qed.

Lemma line_count_to_string_u (n : N) : line_count (to_string_u n) = 0.
Proof.
  unfold to_string_u, NilZero.string_of_uint.
  destruct (N.to_uint n); try reflexivity; apply line_count_digits.
Qed.

Lemma line_count_to_string (z : Z) : line_count (to_string z) = 0.
Proof.
  unfold to_string, NilZero.string_of_int, NilZero.string_of_uint.
  destruct (Z.to_int z) as [d|d]; destruct d;
    try reflexivity; apply line_count_digits.
Qed.

(** The printers are decimal: reading the numeral gives the number back. *)
Lemma of_string_u_to_string_u (n : N) :
  of_string_u (to_string_u n) = Some n.
Proof.
  unfold of_string_u, to_string_u.
  rewrite NilZero.usu.
  - simpl. f_equal. apply DecimalN.Unsigned.of_to.
  - destruct n as [|p]; [done|]. apply DecimalPos.Unsigned.to_uint_nonnil.
Qed.

Lemma of_string_to_string (z : Z) : of_string (to_string z) = Some z.
Proof.
  unfold of_string, to_string.
  rewrite NilZero.isi.
  - simpl. f_equal. apply DecimalZ.of_to.
  - destruct z as [|p|p]; simpl; try done.
    intros [= H]. by apply DecimalPos.Unsigned.to_uint_nonnil in H.
  - destruct z as [|p|p]; simpl; try done.
    intros [= H]. by apply DecimalPos.Unsigned.to_uint_nonnil in H.
Qed.

Lemma to_string_inj (a b : Z) : to_string a = to_string b → a = b.
Proof.
  intros E. apply (f_equal of_string) in E.
  rewrite !of_string_to_string in E. congruence.
Qed.

(** A negative [int] prints as a minus sign and the digits of its
    magnitude; a non-negative one as its digits alone. *)
Lemma to_string_negative (z : Z) :
  (z < 0)%Z → to_string z = String "-" (to_string_u (Z.to_N (- z))).
Proof. destruct z as [|p|p]; [lia | lia | reflexivity]. Qed.

Lemma to_string_nonnegative (z : Z) :
  (0 ≤ z)%Z → to_string z = to_string_u (Z.to_N z).
Proof. destruct z as [|p|p]; [reflexivity | reflexivity | lia]. Qed.

(** [std::bitset<W>] prints exactly W characters ... *)
Lemma bitset_to_string_length (w : nat) (v : N) :
  String.length (bitset_to_string w v) = w.
Proof. induction w as [|w IH]; simpl; [done | by rewrite IH]. Qed.

(** ... none of which is a line feed ... *)
Lemma line_count_bitset (w : nat) (v : N) :
  line_count (bitset_to_string w v) = 0.
Proof.
  induction w as [|w IH]; [done|].
  change (line_count (bitset_to_string (S w) v))
    with ((if Ascii.eqb newline (bit_char (N.testbit v (N.of_nat w)))
           then 1 else 0) + line_count (bitset_to_string w v)).
  rewrite IH. by destruct (N.testbit v (N.of_nat w)).
Qed.

(** ... all of them binary digits ... *)
Lemma bitset_to_string_binary (w : nat) (v : N) :
  is_binary (bitset_to_string w v) = true.
Proof.
  induction w as [|w IH]; [done|].
  cbn [bitset_to_string is_binary]. rewrite IH.
  by destruct (N.testbit v (N.of_nat w)).
Qed.

(** ... and they are the binary numeral of the W low bits. *)
Lemma low_bits_step (v : N) (w : nat) :
  (v mod 2 ^ N.of_nat (S w)
   = (if N.testbit v (N.of_nat w) then 1 else 0) * 2 ^ N.of_nat w
     + v mod 2 ^ N.of_nat w)%N.
Proof.
  replace (N.of_nat (S w)) with (N.succ (N.of_nat w)) by lia.
  rewrite N.pow_succ_r', (N.mul_comm 2), N.Div0.mod_mul_r.
  rewrite N.testbit_eqb.
  set (q := (v / 2 ^ N.of_nat w)%N).
  set (P := (2 ^ N.of_nat w)%N).
  assert (H2 : (q mod 2 < 2)%N) by (apply N.mod_upper_bound; lia).
  set (r := (q mod 2)%N) in *.
  destruct (N.eqb_spec r 1) as [E|E].
  - rewrite E. lia.
  - assert (r = 0%N) as -> by lia. lia.
Qed.

Lemma binary_value_from_bitset (w : nat) (v acc : N) :
  binary_value_from acc (bitset_to_string w v)
  = (acc * 2 ^ N.of_nat w + v mod 2 ^ N.of_nat w)%N.
Proof.
  revert acc. induction w as [|w IH]; intros acc.
  - simpl. rewrite N.mod_1_r. lia.
  - cbn [bitset_to_string binary_value_from]. rewrite IH, low_bits_step.
    replace (N.of_nat (S w)) with (N.succ (N.of_nat w)) by lia.
    rewrite N.pow_succ_r'.
    destruct (N.testbit v (N.of_nat w)); simpl Ascii.eqb; cbv iota; lia.
Qed.

Lemma binary_value_bitset32 (v : N) :
  binary_value (bitset32 v) = (v mod UINT32_MODULUS)%N.
Proof.
  unfold binary_value, bitset32. rewrite binary_value_from_bitset.
  reflexivity.
Qed.

Lemma bitset32_exact (v : N) :
  is_uint32 v → binary_value (bitset32 v) = v.
Proof.
  intros Hv. rewrite binary_value_bitset32. by apply N.mod_small.
Qed.

Lemma bitset32_length (v : N) : String.length (bitset32 v) = 32.
Proof. apply bitset_to_string_length. Qed.

Lemma mentions_intro (before needle after : string) :
  mentions (before +:+ needle +:+ after) needle.
Proof. by exists before, after. Qed.

End Text.

(* ===================================================================== *)
(** ** Facts about std::map *)
(* ===================================================================== *)

Section StdMap.

Lemma build_metadata_dom (run : Z) (passName periodName : string)
    (versionNumber : Z) :
  dom (build_metadata run passName periodName versionNumber)
  = ({["run"; "passName"; "periodName"; "version"]} : gset string).
Proof.
  unfold build_metadata. rewrite !dom_insert_L, dom_empty_L. set_solver.
Qed.

Lemma build_metadata_lookup (run : Z) (passName periodName : string)
    (versionNumber : Z) :
  let metadata := build_metadata run passName periodName versionNumber in
  metadata !! "run" = Some (to_string run)
  ∧ metadata !! "passName" = Some passName
  ∧ metadata !! "periodName" = Some periodName
  ∧ metadata !! "version" = Some (to_string versionNumber).
Proof. unfold build_metadata. by simplify_map_eq. Qed.

#[local] Instance key_le_total : Total key_le.
Proof. intros a b. unfold key_le. lia. Qed.

#[local] Instance key_le_trans : Transitive key_le.
Proof. intros a b c. unfold key_le. lia. Qed.

Lemma map_iteration_Permutation (m : gmap N N) :
  map_iteration m ≡ₚ map_to_list m.
Proof. apply merge_sort_Permutation. Qed.

Lemma map_iteration_elem_of (m : gmap N N) (k v : N) :
  (k, v) ∈ map_iteration m ↔ m !! k = Some v.
Proof.
  rewrite map_iteration_Permutation. apply elem_of_map_to_list.
Qed.

Lemma map_iteration_length (m : gmap N N) :
  length (map_iteration m) = size m.
Proof.
  rewrite map_iteration_Permutation. apply length_map_to_list.
Qed.

Lemma map_iteration_NoDup (m : gmap N N) : NoDup (map_iteration m).
Proof.
  rewrite map_iteration_Permutation. apply NoDup_map_to_list.
Qed.

Lemma map_iteration_NoDup_keys (m : gmap N N) :
  NoDup (map_iteration m).*1.
Proof.
  rewrite map_iteration_Permutation. apply NoDup_fst_map_to_list.
Qed.

Lemma map_iteration_empty : map_iteration ∅ = [].
Proof.
  apply Permutation_nil_r. rewrite map_iteration_Permutation.
  by rewrite map_to_list_empty.
Qed.

(** A sequence sorted by key without repeated keys is strictly sorted. *)
Lemma sorted_distinct_keys_strict (l : list (N * N)) :
  StronglySorted key_le l → NoDup l.*1 → StronglySorted N.lt l.*1.
Proof.
  induction 1 as [|a l Hl IH Ha]; intros Hnd; simpl.
  - constructor.
  - apply NoDup_cons in Hnd as [Hnot Hnd]. constructor; [by apply IH|].
    apply Forall_fmap, Forall_forall. intros b Hb. simpl.
    rewrite Forall_forall in Ha. specialize (Ha b Hb). unfold key_le in Ha.
    assert (a.1 ≠ b.1).
    { intros E. apply Hnot. rewrite E. by apply list_elem_of_fmap_2. }
    lia.
Qed.

Lemma map_iteration_ascending (m : gmap N N) :
  StronglySorted N.lt (map_iteration m).*1.
Proof.
  apply sorted_distinct_keys_strict.
  - apply StronglySorted_merge_sort; apply _.
  - apply map_iteration_NoDup_keys.
Qed.

(** In a strictly sorted sequence, a later position holds a larger key. *)
Lemma strictly_sorted_lookup_lt (ks : list N) (i j : nat) (a b : N) :
  StronglySorted N.lt ks →
  ks !! i = Some a → ks !! j = Some b → i < j → (a < b)%N.
Proof.
  intros Hs. revert i j. induction Hs as [|k ks Hs IH Hk]; intros i j Hi Hj Hij.
  - done.
  - destruct i as [|i], j as [|j]; simpl in *; try lia.
    + injection Hi as ->. rewrite Forall_forall in Hk. apply Hk.
      by eapply list_elem_of_lookup_2.
    + eapply IH; eauto. lia.
Qed.

(** Conversely the entry with the smaller key sits at the earlier
    position. *)
Lemma strictly_sorted_smaller_first (ks : list N) (i j : nat) (a b : N) :
  StronglySorted N.lt ks →
  ks !! i = Some a → ks !! j = Some b → (a < b)%N → i < j.
Proof.
  intros Hs Hi Hj Hab.
  destruct (Nat.lt_trichotomy i j) as [Hlt|[Heq|Hgt]]; [done| |].
  - subst j. rewrite Hi in Hj. injection Hj as ->. lia.
  - pose proof (strictly_sorted_lookup_lt ks j i b a Hs Hj Hi Hgt). lia.
Qed.

End StdMap.

(* ===================================================================== *)
(** ** Running the macro *)
(* ===================================================================== *)

Section Run.
Variable world : Externals.
Variables (run : Z) (passName periodName : string) (versionNumber : Z).
Variable ccdbPath : string.

Lemma for_each_cout {A} (f : A → string) (l : list A) (p : process) :
  for_each l (λ x, cout_put (f x)) p
  = ({| cout := cout p +:+ concat_lines (f <$> l);
        cerr := cerr p; calls := calls p |}, Normal tt).
Proof.
  revert p. induction l as [|x l IH]; intros p.
  - simpl. rewrite append_empty_r. by destruct p.
  - cbn [for_each]. unfold mbind, exec_bind. cbn [cout_put].
    rewrite IH. cbn [cout cerr calls fmap list_fmap concat_lines].
    by rewrite append_assoc.
Qed.

(** The three ways out of the macro before the lookup answers, and the
    four ways the lookup can answer. *)
Lemma invoke_load_failed :
  (gSystem_Load world "dict_ccdb.so" < 0)%Z →
  invoke world run passName periodName versionNumber ccdbPath
  = ({| cout := ""; cerr := load_error_line;
        calls := [CallLoad "dict_ccdb.so"] |}, Normal tt).
Proof.
  intros Hload. apply Z.ltb_lt in Hload.
  unfold invoke, read_encoded_flags, mbind, exec_bind. cbn [log_call].
  by rewrite Hload.
Qed.

Lemma invoke_duration_raised (e : thrown) :
  (0 ≤ gSystem_Load world "dict_ccdb.so")%Z →
  getRunDuration world run = Raised e →
  invoke world run passName periodName versionNumber ccdbPath
  = ({| cout := ""; cerr := ""; calls := calls_to_duration run |},
     Raised e).
Proof.
  intros Hload Hdur. apply Z.ltb_ge in Hload.
  unfold invoke, read_encoded_flags, mbind, exec_bind. cbn [log_call].
  rewrite Hload. unfold outcome. by rewrite Hdur.
Qed.

Section Lookup.
Variable soreor : N * N.
Hypothesis load_ok : (0 ≤ gSystem_Load world "dict_ccdb.so")%Z.
Hypothesis duration_ok : getRunDuration world run = Normal soreor.

Lemma invoke_lookup :
  invoke world run passName periodName versionNumber ccdbPath
  = let lookup_calls :=
      calls_to_lookup run passName periodName versionNumber ccdbPath
        soreor in
    match getSpecific world ccdbPath (query_timestamp soreor)
            (build_metadata run passName periodName versionNumber) with
    | Normal None =>
        ({| cout := ""; cerr := not_found_line run;
            calls := lookup_calls |}, Normal tt)
    | Normal (Some flags) =>
        ({| cout := header_line run +:+ concat_lines (flag_lines flags);
            cerr := ""; calls := lookup_calls |}, Normal tt)
    | Raised (StdException what) =>
        ({| cout := ""; cerr := exception_line what;
            calls := lookup_calls |}, Normal tt)
    | Raised (ForeignObject d) =>
        ({| cout := ""; cerr := ""; calls := lookup_calls |},
         Raised (ForeignObject d))
    end.
Proof using load_ok duration_ok.
  apply Z.ltb_ge in load_ok.
  unfold invoke, read_encoded_flags, mbind, exec_bind. cbn [log_call].
  rewrite load_ok. unfold outcome at 1. rewrite duration_ok.
  unfold try_catch_std_exception, outcome. cbn [log_call].
  destruct (getSpecific world ccdbPath (query_timestamp soreor)
              (build_metadata run passName periodName versionNumber))
    as [[flags|]|[what|d]]; try reflexivity.
  cbn [cout_put]. by rewrite for_each_cout.
Qed.

End Lookup.

End Run.

(* ===================================================================== *)
(** ** Lines written by the macro *)
(* ===================================================================== *)

Section Lines.

Lemma single_line_count (s : string) : single_line s → line_count s = 1.
Proof.
  intros (body & -> & Hbody).
  by rewrite line_count_append, Hbody, line_count_endl.
Qed.

Lemma single_line_load_error : single_line load_error_line.
Proof. by exists "Error: Failed to load dict_ccdb.so". Qed.

Lemma single_line_not_found (run : Z) : single_line (not_found_line run).
Proof.
  exists ("Error: Unable to retrieve encoded flags for run "
            +:+ to_string run +:+ " from CCDB."). split.
  - unfold not_found_line. by rewrite !append_assoc.
  - by rewrite !line_count_append, line_count_to_string.
Qed.

Lemma single_line_header (run : Z) : single_line (header_line run).
Proof.
  exists ("Encoded Flags for Run " +:+ to_string run +:+ ":"). split.
  - unfold header_line. by rewrite !append_assoc.
  - by rewrite !line_count_append, line_count_to_string.
Qed.

Lemma single_line_flag_line (entry : N * N) : single_line (flag_line entry).
Proof.
  destruct entry as [timestamp bitmask].
  exists ("  Timestamp: " +:+ to_string_u timestamp
            +:+ ", Bitmask: " +:+ bitset32 bitmask
            +:+ " (" +:+ to_string_u bitmask +:+ ")"). split.
  - unfold flag_line. by rewrite !append_assoc.
  - unfold bitset32.
    by rewrite !line_count_append, !line_count_to_string_u,
      line_count_bitset.
Qed.

Lemma single_line_exception (what : string) :
  line_count what = 0 → single_line (exception_line what).
Proof.
  intros Hwhat.
  exists ("Error: Exception occurred while retrieving CCDB object: "
            +:+ what). split.
  - unfold exception_line. by rewrite !append_assoc.
  - by rewrite line_count_append, Hwhat.
Qed.

Lemma line_count_concat_lines (ls : list string) :
  Forall single_line ls → line_count (concat_lines ls) = length ls.
Proof.
  induction 1 as [|l ls Hl _ IH]; [done|].
  cbn [concat_lines length].
  by rewrite line_count_append, (single_line_count l Hl), IH.
Qed.

Lemma flag_lines_single (flags : gmap N N) :
  Forall single_line (flag_lines flags).
Proof.
  unfold flag_lines. apply Forall_fmap, Forall_forall.
  intros entry _. apply single_line_flag_line.
Qed.

Lemma flag_lines_length (flags : gmap N N) :
  length (flag_lines flags) = size flags.
Proof.
  unfold flag_lines. by rewrite length_fmap, map_iteration_length.
Qed.

Lemma flag_lines_empty : flag_lines ∅ = [].
Proof. unfold flag_lines. by rewrite map_iteration_empty. Qed.

(** Each entry of the mapping sits at one position of the iteration, and
    the line printed at that position is its line. *)
Lemma flag_lines_position (flags : gmap N N) (timestamp bitmask : N) :
  flags !! timestamp = Some bitmask →
  ∃ i, map_iteration flags !! i = Some (timestamp, bitmask)
       ∧ flag_lines flags !! i = Some (flag_line (timestamp, bitmask))
       ∧ ∀ j, map_iteration flags !! j = Some (timestamp, bitmask) → j = i.
Proof.
  intros Hin. apply map_iteration_elem_of in Hin.
  apply list_elem_of_lookup_1 in Hin as [i Hi]. exists i.
  split; [done|]. split.
  - unfold flag_lines. by rewrite list_lookup_fmap, Hi.
  - intros j Hj.
    exact (NoDup_lookup _ j i _ (map_iteration_NoDup flags) Hj Hi).
Qed.

End Lines.

(* ===================================================================== *)
(** ** The query timestamp *)
(* ===================================================================== *)

Section Timestamp.

(** While the sum of the two timestamps fits 64 bits, the query timestamp
    is the midpoint of the window, rounded down. *)
Lemma query_timestamp_exact (S E : N) :
  (S + E < UINT64_MODULUS)%N → query_timestamp (S, E) = ((S + E) / 2)%N.
Proof.
  intros Hfit. unfold query_timestamp, add_u64. simpl.
  by rewrite N.mod_small.
Qed.

(** Once the sum passes 2^64 the timestamp falls 2^63 short of it. *)
Lemma query_timestamp_wrapped (S E : N) :
  is_uint64 S → is_uint64 E → (UINT64_MODULUS ≤ S + E)%N →
  query_timestamp (S, E) = ((S + E) / 2 - 2 ^ 63)%N.
Proof.
  unfold is_uint64, query_timestamp, add_u64, UINT64_MODULUS.
  cbn [fst snd]. intros HS HE Hover.
  assert (Hm : ((S + E) mod 2 ^ 64 = S + E - 2 ^ 64)%N).
  { symmetry. apply N.mod_unique with (q := 1%N); lia. }
  rewrite Hm.
  assert (Hd : (S + E = 2 * ((S + E) / 2) + (S + E) mod 2)%N)
    by (apply N.div_mod; lia).
  assert (Hr : ((S + E) mod 2 < 2)%N) by (apply N.mod_upper_bound; lia).
  symmetry. apply N.div_unique with (r := ((S + E) mod 2)%N); lia.
Qed.

(** The timestamp handed to the lookup is below 2^63. *)
Lemma query_timestamp_bound (soreor : N * N) :
  (query_timestamp soreor < 2 ^ 63)%N.
Proof.
  unfold query_timestamp, add_u64, UINT64_MODULUS.
  apply N.Div0.div_lt_upper_bound.
  change (2 * 2 ^ 63)%N with (2 ^ 64)%N.
  apply N.mod_upper_bound. lia.
Qed.

End Timestamp.

(* ===================================================================== *)
(** ** The calls an invocation makes *)
(* ===================================================================== *)

Section Calls.
Variable world : Externals.
Variables (run : Z) (passName periodName : string) (versionNumber : Z).
Variable ccdbPath : string.

Lemma invoke_calls_lookup (soreor : N * N) :
  (0 ≤ gSystem_Load world "dict_ccdb.so")%Z →
  getRunDuration world run = Normal soreor →
  calls (invoke world run passName periodName versionNumber ccdbPath).1
  = calls_to_lookup run passName periodName versionNumber ccdbPath soreor.
Proof.
  intros Hload Hdur. rewrite (invoke_lookup _ _ _ _ _ _ _ Hload Hdur).
  cbv zeta.
  by destruct (getSpecific world ccdbPath (query_timestamp soreor)
                 (build_metadata run passName periodName versionNumber))
    as [[flags|]|[what|d]].
Qed.

(** A lookup found in the log was made after a successful load, for the
    window the manager returned, with the filter of lines 24-28. *)
Lemma invoke_logged_lookup (path : string) (ts : N)
    (metadata : gmap string string) :
  CallGetSpecific path ts metadata
    ∈ calls (invoke world run passName periodName versionNumber ccdbPath).1 →
  (0 ≤ gSystem_Load world "dict_ccdb.so")%Z
  ∧ ∃ soreor, getRunDuration world run = Normal soreor
      ∧ path = ccdbPath ∧ ts = query_timestamp soreor
      ∧ metadata = build_metadata run passName periodName versionNumber.
Proof.
  destruct (Z.lt_ge_cases (gSystem_Load world "dict_ccdb.so") 0)
    as [Hfail|Hload].
  - rewrite invoke_load_failed by done. cbn [fst calls].
    intros Hin. apply list_elem_of_singleton in Hin. discriminate.
  - destruct (getRunDuration world run) as [soreor|e] eqn:Hdur.
    + rewrite (invoke_calls_lookup soreor Hload Hdur).
      unfold calls_to_lookup, calls_to_duration. intros Hin.
      split; [done|]. exists soreor. split; [done|].
      repeat (apply elem_of_cons in Hin as [Hin|Hin]; [discriminate|]).
      apply list_elem_of_singleton in Hin. by injection Hin as -> -> ->.
    + rewrite (invoke_duration_raised _ _ _ _ _ _ e Hload Hdur).
      cbn [fst calls]. unfold calls_to_duration. intros Hin.
      repeat (apply elem_of_cons in Hin as [Hin|Hin]; [discriminate|]).
      by apply elem_of_nil in Hin.
Qed.

End Calls.

(* ===================================================================== *)
(** ** Properties of read_encoded_flags *)
(* ===================================================================== *)

(** C1 (defect of the code). At the time window S = E = 2^63, two values
    of the 64-bit unsigned type, the macro asks the store for timestamp 0,
    whereas floor((S+E)/2) is 2^63: the sum on line 21 wraps around before
    it is halved, so the timestamp is not "in the middle of the run". *)
Theorem query_timestamp_wraps_around :
  let S := (2 ^ 63)%N in
  let E := (2 ^ 63)%N in
  is_uint64 S ∧ is_uint64 E
  ∧ query_timestamp (S, E) = 0%N
  ∧ ((S + E) / 2)%N = (2 ^ 63)%N
  ∧ calls (invoke (scripted 0 (Normal (S, E)) (Normal None))
             1 "apass1" "LHC22o" 1 default_ccdbPath).1
    = [CallLoad "dict_ccdb.so"; CallInstance; CallGetRunDuration 1;
       CallGetSpecific default_ccdbPath 0
         (build_metadata 1 "apass1" "LHC22o" 1)].
Proof. repeat split; by vm_compute. Qed.

(** C6. When [gSystem->Load] fails (negative result) the macro writes one
    line to the error stream, nothing to the output stream, returns
    normally, and its only external call is the load itself: no call on the
    CCDB manager is made, the run-duration call included. *)
Theorem load_failure_short_circuits (world : Externals) (run : Z)
    (passName periodName : string) (versionNumber : Z) (ccdbPath : string) :
  (gSystem_Load world "dict_ccdb.so" < 0)%Z →
  let result :=
    invoke world run passName periodName versionNumber ccdbPath in
  result.2 = Normal tt
  ∧ cerr result.1 = load_error_line
  ∧ single_line (cerr result.1) ∧ line_count (cerr result.1) = 1
  ∧ cout result.1 = ""
  ∧ calls result.1 = [CallLoad "dict_ccdb.so"]
  ∧ store_call_count result.1 = 0.
Proof.
  intros Hfail result. subst result. rewrite invoke_load_failed by done.
  cbn [fst snd cout cerr calls].
  repeat split; auto using single_line_load_error.
Qed.

Lemma load_failure_short_circuits_witness :
  let world := scripted (-1) (Normal (10, 20)%N) (Normal (Some sample_flags)) in
  let result := invoke world 42 "apass1" "LHC22o" 1 default_ccdbPath in
  (gSystem_Load world "dict_ccdb.so" < 0)%Z
  ∧ result.2 = Normal tt
  ∧ cerr result.1 = load_error_line
  ∧ single_line (cerr result.1) ∧ line_count (cerr result.1) = 1
  ∧ cout result.1 = ""
  ∧ calls result.1 = [CallLoad "dict_ccdb.so"]
  ∧ store_call_count result.1 = 0.
Proof.
  split; [simpl; lia|].
  apply (load_failure_short_circuits
           (scripted (-1) (Normal (10, 20)%N) (Normal (Some sample_flags)))
           42 "apass1" "LHC22o" 1 default_ccdbPath).
  simpl. lia.
Defined.

(** C8. When [getRunDuration] throws, whatever the object thrown, the
    exception leaves the macro: the invocation ends with that exception in
    flight instead of returning, both streams stay empty, and the lookup is
    never reached. *)
Theorem run_duration_exception_propagates (world : Externals) (run : Z)
    (passName periodName : string) (versionNumber : Z) (ccdbPath : string)
    (e : thrown) :
  (0 ≤ gSystem_Load world "dict_ccdb.so")%Z →
  getRunDuration world run = Raised e →
  let result :=
    invoke world run passName periodName versionNumber ccdbPath in
  result.2 = Raised e
  ∧ result.2 ≠ Normal tt
  ∧ cerr result.1 = ""
  ∧ cout result.1 = ""
  ∧ calls result.1 = calls_to_duration run.
Proof.
  intros Hload Hdur result. subst result.
  rewrite (invoke_duration_raised _ _ _ _ _ _ e Hload Hdur).
  cbn [fst snd cout cerr calls]. by repeat split.
Qed.

Lemma run_duration_exception_propagates_witness :
  let e := StdException "run 42 not found in RCT" in
  let world := scripted 0 (Raised e) (Normal (Some sample_flags)) in
  let result := invoke world 42 "apass1" "LHC22o" 1 default_ccdbPath in
  (0 ≤ gSystem_Load world "dict_ccdb.so")%Z
  ∧ getRunDuration world 42 = Raised e
  ∧ result.2 = Raised e
  ∧ result.2 ≠ Normal tt
  ∧ cerr result.1 = ""
  ∧ cout result.1 = ""
  ∧ calls result.1 = calls_to_duration 42.
Proof.
  split; [simpl; lia|]. split; [reflexivity|].
  apply (run_duration_exception_propagates
           (scripted 0 (Raised (StdException "run 42 not found in RCT"))
              (Normal (Some sample_flags)))
           42 "apass1" "LHC22o" 1 default_ccdbPath
           (StdException "run 42 not found in RCT")).
  - simpl. lia.
  - reflexivity.
Defined.

(** C4. When the lookup returns a null pointer the macro writes exactly
    one line to the error stream, which names the run number, writes
    nothing to the output stream (no header, no flag line) and returns
    normally. The line is "Error: Unable to retrieve encoded flags for
    run ", the decimal numeral of the run number (a numeral that reads
    back as the run number), " from CCDB." and a line feed. *)
Theorem null_result_reported (world : Externals) (run : Z)
    (passName periodName : string) (versionNumber : Z) (ccdbPath : string)
    (soreor : N * N) :
  (0 ≤ gSystem_Load world "dict_ccdb.so")%Z →
  getRunDuration world run = Normal soreor →
  getSpecific world ccdbPath (query_timestamp soreor)
    (build_metadata run passName periodName versionNumber) = Normal None →
  let result :=
    invoke world run passName periodName versionNumber ccdbPath in
  result.2 = Normal tt
  ∧ cerr result.1 = not_found_line run
  ∧ single_line (cerr result.1) ∧ line_count (cerr result.1) = 1
  ∧ mentions (cerr result.1) (to_string run)
  ∧ cout result.1 = ""
  ∧ cerr result.1
    = "Error: Unable to retrieve encoded flags for run " +:+ to_string run
        +:+ " from CCDB." +:+ endl
  ∧ of_string (to_string run) = Some run.
Proof.
  intros Hload Hdur Hnull result. subst result.
  rewrite (invoke_lookup _ _ _ _ _ _ _ Hload Hdur), Hnull.
  cbn [fst snd cout cerr calls].
  split; [done|]. split; [done|].
  split; [apply single_line_not_found|].
  split; [apply single_line_count, single_line_not_found|].
  split; [apply mentions_intro|].
  split; [done|]. split; [reflexivity | apply of_string_to_string].
Qed.

Lemma null_result_reported_witness :
  let world := scripted 0 (Normal (10, 20)%N) (Normal None) in
  let result := invoke world 42 "apass1" "LHC22o" 1 default_ccdbPath in
  (0 ≤ gSystem_Load world "dict_ccdb.so")%Z
  ∧ getRunDuration world 42 = Normal (10, 20)%N
  ∧ getSpecific world default_ccdbPath (query_timestamp (10, 20)%N)
      (build_metadata 42 "apass1" "LHC22o" 1) = Normal None
  ∧ result.2 = Normal tt
  ∧ cerr result.1 = not_found_line 42
  ∧ single_line (cerr result.1) ∧ line_count (cerr result.1) = 1
  ∧ mentions (cerr result.1) (to_string 42)
  ∧ cout result.1 = ""
  ∧ cerr result.1
    = "Error: Unable to retrieve encoded flags for run 42 from CCDB."
        +:+ endl
  ∧ of_string "42" = Some 42%Z.
Proof.
  split; [simpl; lia|]. split; [reflexivity|]. split; [reflexivity|].
  apply (null_result_reported (scripted 0 (Normal (10, 20)%N) (Normal None))
           42 "apass1" "LHC22o" 1 default_ccdbPath (10, 20)%N).
  - simpl. lia.
  - reflexivity.
  - reflexivity.
Defined.


(** C9. When the lookup succeeds with an empty mapping the macro treats it
    as a success: the output stream holds the header line naming the run
    and nothing else (no flag line), the error stream stays empty and the
    macro returns normally. The header is "Encoded Flags for Run ", the
    decimal numeral of the run number (a numeral that reads back as the
    run number), ":" and a line feed. *)
Theorem empty_mapping_prints_header_only (world : Externals) (run : Z)
    (passName periodName : string) (versionNumber : Z) (ccdbPath : string)
    (soreor : N * N) :
  (0 ≤ gSystem_Load world "dict_ccdb.so")%Z →
  getRunDuration world run = Normal soreor →
  getSpecific world ccdbPath (query_timestamp soreor)
    (build_metadata run passName periodName versionNumber)
  = Normal (Some ∅) →
  let result :=
    invoke world run passName periodName versionNumber ccdbPath in
  result.2 = Normal tt
  ∧ cout result.1 = header_line run
  ∧ single_line (cout result.1) ∧ line_count (cout result.1) = 1
  ∧ mentions (cout result.1) (to_string run)
  ∧ flag_lines ∅ = []
  ∧ cerr result.1 = ""
  ∧ cout result.1 = "Encoded Flags for Run " +:+ to_string run +:+ ":" +:+ endl
  ∧ of_string (to_string run) = Some run.
Proof.
  intros Hload Hdur Hempty result. subst result.
  rewrite (invoke_lookup _ _ _ _ _ _ _ Hload Hdur), Hempty.
  cbn [fst snd cout cerr calls].
  rewrite flag_lines_empty. cbn [concat_lines]. rewrite append_empty_r.
  split; [done|]. split; [done|].
  split; [apply single_line_header|].
  split; [apply single_line_count, single_line_header|].
  split; [apply mentions_intro|].
  split; [done|]. split; [done|].
  split; [reflexivity | apply of_string_to_string].
Qed.

Lemma empty_mapping_prints_header_only_witness :
  let world := scripted 0 (Normal (10, 20)%N) (Normal (Some ∅)) in
  let result := invoke world 42 "apass1" "LHC22o" 1 default_ccdbPath in
  (0 ≤ gSystem_Load world "dict_ccdb.so")%Z
  ∧ getRunDuration world 42 = Normal (10, 20)%N
  ∧ getSpecific world default_ccdbPath (query_timestamp (10, 20)%N)
      (build_metadata 42 "apass1" "LHC22o" 1) = Normal (Some ∅)
  ∧ result.2 = Normal tt
  ∧ cout result.1 = header_line 42
  ∧ single_line (cout result.1) ∧ line_count (cout result.1) = 1
  ∧ mentions (cout result.1) (to_string 42)
  ∧ flag_lines ∅ = []
  ∧ cerr result.1 = ""
  ∧ cout result.1 = "Encoded Flags for Run 42:" +:+ endl
  ∧ of_string "42" = Some 42%Z.
Proof.
  split; [simpl; lia|]. split; [reflexivity|]. split; [reflexivity|].
  apply (empty_mapping_prints_header_only
           (scripted 0 (Normal (10, 20)%N) (Normal (Some ∅)))
           42 "apass1" "LHC22o" 1 default_ccdbPath (10, 20)%N).
  - simpl. lia.
  - reflexivity.
  - reflexivity.
Defined.

(** C2. On a successful retrieval the output stream holds the header
    followed by one line per entry of the mapping and nothing else: there
    are as many flag lines as entries, every entry has its own position in
    the sequence of lines, and the line of entry (timestamp, bitmask) is
    the text "  Timestamp: ", the decimal numeral of the timestamp,
    ", Bitmask: ", 32 binary digits whose value is the bitmask (a 32-bit
    unsigned value), " (", the decimal numeral of the bitmask, ")" and a
    line feed. *)
Theorem one_flag_line_per_entry (world : Externals) (run : Z)
    (passName periodName : string) (versionNumber : Z) (ccdbPath : string)
    (soreor : N * N) (flags : gmap N N) :
  (0 ≤ gSystem_Load world "dict_ccdb.so")%Z →
  getRunDuration world run = Normal soreor →
  getSpecific world ccdbPath (query_timestamp soreor)
    (build_metadata run passName periodName versionNumber)
  = Normal (Some flags) →
  let result :=
    invoke world run passName periodName versionNumber ccdbPath in
  result.2 = Normal tt
  ∧ cerr result.1 = ""
  ∧ cout result.1 = header_line run +:+ concat_lines (flag_lines flags)
  ∧ length (flag_lines flags) = size flags
  ∧ line_count (concat_lines (flag_lines flags)) = size flags
  ∧ ∀ timestamp bitmask,
      flags !! timestamp = Some bitmask →
      let line := flag_line (timestamp, bitmask) in
      (∃ i, map_iteration flags !! i = Some (timestamp, bitmask)
            ∧ flag_lines flags !! i = Some line
            ∧ ∀ j, map_iteration flags !! j = Some (timestamp, bitmask) →
                   j = i)
      ∧ single_line line
      ∧ line = "  Timestamp: " +:+ to_string_u timestamp
                 +:+ ", Bitmask: " +:+ bitset32 bitmask
                 +:+ " (" +:+ to_string_u bitmask +:+ ")" +:+ endl
      ∧ of_string_u (to_string_u timestamp) = Some timestamp
      ∧ of_string_u (to_string_u bitmask) = Some bitmask
      ∧ String.length (bitset32 bitmask) = 32
      ∧ is_binary (bitset32 bitmask) = true
      ∧ binary_value (bitset32 bitmask) = (bitmask mod UINT32_MODULUS)%N
      ∧ (is_uint32 bitmask → binary_value (bitset32 bitmask) = bitmask).
Proof.
  intros Hload Hdur Hfound result. subst result.
  rewrite (invoke_lookup _ _ _ _ _ _ _ Hload Hdur), Hfound.
  cbn [fst snd cout cerr calls].
  split; [done|]. split; [done|]. split; [done|].
  split; [apply flag_lines_length|].
  split.
  { rewrite line_count_concat_lines by apply flag_lines_single.
    apply flag_lines_length. }
  intros timestamp bitmask Hentry.
  split; [by apply flag_lines_position|].
  split; [apply single_line_flag_line|].
  split; [reflexivity|].
  split; [apply of_string_u_to_string_u|].
  split; [apply of_string_u_to_string_u|].
  split; [apply bitset32_length|].
  split; [apply bitset_to_string_binary|].
  split; [apply binary_value_bitset32 | apply bitset32_exact].
Qed.

Lemma one_flag_line_per_entry_witness :
  let world := scripted 0 (Normal (10, 20)%N) (Normal (Some sample_flags)) in
  let result := invoke world 42 "apass1" "LHC22o" 1 default_ccdbPath in
  (0 ≤ gSystem_Load world "dict_ccdb.so")%Z
  ∧ getRunDuration world 42 = Normal (10, 20)%N
  ∧ getSpecific world default_ccdbPath (query_timestamp (10, 20)%N)
      (build_metadata 42 "apass1" "LHC22o" 1) = Normal (Some sample_flags)
  ∧ sample_flags !! 300%N = Some 5%N
  ∧ is_uint32 5
  ∧ cout result.1
    = header_line 42 +:+ concat_lines (flag_lines sample_flags)
  ∧ length (flag_lines sample_flags) = 3
  ∧ flag_lines sample_flags !! 1 = Some (flag_line (300, 5)%N)
  ∧ bitset32 5 = "00000000000000000000000000000101"
  ∧ binary_value (bitset32 5) = 5%N.
Proof.
  split; [simpl; lia|]. split; [reflexivity|]. split; [reflexivity|].
  split; [reflexivity|]. split; [reflexivity|].
  destruct (one_flag_line_per_entry
              (scripted 0 (Normal (10, 20)%N) (Normal (Some sample_flags)))
              42 "apass1" "LHC22o" 1 default_ccdbPath (10, 20)%N
              sample_flags)
    as (_ & _ & Hcout & Hlen & _ & Hentries).
  - simpl. lia.
  - reflexivity.
  - reflexivity.
  - destruct (Hentries 300%N 5%N) as (_ & _ & _ & _ & _ & _ & _ & _ & Hbits).
    + reflexivity.
    + split; [exact Hcout|]. split; [exact Hlen|].
      split; [reflexivity|]. split; [reflexivity|].
      apply Hbits. reflexivity.
Defined.

(** C7. On a successful retrieval the flag lines are printed in the order
    of the mapping's iteration, whose timestamps are strictly ascending:
    the line at a later position carries a larger timestamp, and of two
    entries the one with the smaller timestamp is printed first. The line
    at each position is the text "  Timestamp: ", the decimal numeral of
    that entry's timestamp (a numeral that reads back as the timestamp),
    ", Bitmask: ", the 32 binary digits, " (", the decimal bitmask, ")" and
    a line feed. *)
Theorem flag_lines_ascending (world : Externals) (run : Z)
    (passName periodName : string) (versionNumber : Z) (ccdbPath : string)
    (soreor : N * N) (flags : gmap N N) :
  (0 ≤ gSystem_Load world "dict_ccdb.so")%Z →
  getRunDuration world run = Normal soreor →
  getSpecific world ccdbPath (query_timestamp soreor)
    (build_metadata run passName periodName versionNumber)
  = Normal (Some flags) →
  let result :=
    invoke world run passName periodName versionNumber ccdbPath in
  let printed := map_iteration flags in
  cout result.1 = header_line run +:+ concat_lines (flag_line <$> printed)
  ∧ printed ≡ₚ map_to_list flags
  ∧ StronglySorted N.lt printed.*1
  ∧ ∀ i j entry_i entry_j,
      printed !! i = Some entry_i → printed !! j = Some entry_j →
      (flag_line <$> printed) !! i = Some (flag_line entry_i)
      ∧ ((entry_i.1 < entry_j.1)%N ↔ i < j)
      ∧ (flag_line <$> printed) !! i
        = Some ("  Timestamp: " +:+ to_string_u entry_i.1
                  +:+ ", Bitmask: " +:+ bitset32 entry_i.2
                  +:+ " (" +:+ to_string_u entry_i.2 +:+ ")" +:+ endl)
      ∧ of_string_u (to_string_u entry_i.1) = Some entry_i.1
      ∧ of_string_u (to_string_u entry_j.1) = Some entry_j.1.
Proof.
  intros Hload Hdur Hfound result printed. subst result printed.
  rewrite (invoke_lookup _ _ _ _ _ _ _ Hload Hdur), Hfound.
  cbn [fst snd cout cerr calls].
  split; [done|]. split; [apply map_iteration_Permutation|].
  split; [apply map_iteration_ascending|].
  intros i j entry_i entry_j Hi Hj.
  split; [by rewrite list_lookup_fmap, Hi|].
  pose proof (map_iteration_ascending flags) as Hsorted.
  assert (Hki : (map_iteration flags).*1 !! i = Some entry_i.1)
    by (by rewrite list_lookup_fmap, Hi).
  assert (Hkj : (map_iteration flags).*1 !! j = Some entry_j.1)
    by (by rewrite list_lookup_fmap, Hj).
  split; [split|].
  - by apply (strictly_sorted_smaller_first _ _ _ _ _ Hsorted Hki Hkj).
  - by apply (strictly_sorted_lookup_lt _ _ _ _ _ Hsorted Hki Hkj).
  - split; [|split; apply of_string_u_to_string_u].
    rewrite list_lookup_fmap, Hi. by destruct entry_i.
Qed.

Lemma flag_lines_ascending_witness :
  let world := scripted 0 (Normal (10, 20)%N) (Normal (Some sample_flags)) in
  let result := invoke world 42 "apass1" "LHC22o" 1 default_ccdbPath in
  (0 ≤ gSystem_Load world "dict_ccdb.so")%Z
  ∧ getRunDuration world 42 = Normal (10, 20)%N
  ∧ getSpecific world default_ccdbPath (query_timestamp (10, 20)%N)
      (build_metadata 42 "apass1" "LHC22o" 1) = Normal (Some sample_flags)
  ∧ map_iteration sample_flags
    = [(7, 4294967295); (300, 5); (1000, 0)]%N
  ∧ StronglySorted N.lt (map_iteration sample_flags).*1
  ∧ cout result.1
    = "Encoded Flags for Run 42:" +:+ endl
        +:+ "  Timestamp: 7, Bitmask: 11111111111111111111111111111111 (4294967295)"
        +:+ endl
        +:+ "  Timestamp: 300, Bitmask: 00000000000000000000000000000101 (5)"
        +:+ endl
        +:+ "  Timestamp: 1000, Bitmask: 00000000000000000000000000000000 (0)"
        +:+ endl
  ∧ (flag_line <$> map_iteration sample_flags) !! 0
    = Some ("  Timestamp: 7, Bitmask: 11111111111111111111111111111111 (4294967295)"
              +:+ endl)
  ∧ ((7 < 300)%N ↔ 0 < 1)
  ∧ of_string_u "7" = Some 7%N.
Proof.
  split; [simpl; lia|]. split; [reflexivity|]. split; [reflexivity|].
  split; [reflexivity|].
  destruct (flag_lines_ascending
              (scripted 0 (Normal (10, 20)%N) (Normal (Some sample_flags)))
              42 "apass1" "LHC22o" 1 default_ccdbPath (10, 20)%N
              sample_flags)
    as (Hcout & _ & Hsorted & Hlines).
  - simpl. lia.
  - reflexivity.
  - reflexivity.
  - destruct (Hlines 0 1 (7, 4294967295)%N (300, 5)%N)
      as (_ & Horder & Hfirst & Hreads & _).
    + reflexivity.
    + reflexivity.
    + split; [exact Hsorted|]. split; [exact Hcout|].
      split; [exact Hfirst|]. split; [exact Horder | exact Hreads].
Defined.


(** C3. Whatever the inputs and whatever the collaborators answer, every
    lookup the macro makes carries a metadata filter whose keys are exactly
    "run", "passName", "periodName" and "version"; "run" and "version" map
    to the decimal numerals of the two integer inputs (numerals that read
    back as those integers) and "passName" and "periodName" map to the two
    string inputs unchanged. *)
Theorem metadata_filter_exact (world : Externals) (run : Z)
    (passName periodName : string) (versionNumber : Z) (ccdbPath : string)
    (path : string) (ts : N) (metadata : gmap string string) :
  CallGetSpecific path ts metadata
    ∈ calls (invoke world run passName periodName versionNumber ccdbPath).1 →
  dom metadata = ({["run"; "passName"; "periodName"; "version"]} : gset string)
  ∧ metadata !! "run" = Some (to_string run)
  ∧ metadata !! "passName" = Some passName
  ∧ metadata !! "periodName" = Some periodName
  ∧ metadata !! "version" = Some (to_string versionNumber)
  ∧ of_string (to_string run) = Some run
  ∧ of_string (to_string versionNumber) = Some versionNumber.
Proof.
  intros Hlogged.
  apply invoke_logged_lookup in Hlogged
    as (_ & soreor & _ & _ & _ & ->).
  split; [apply build_metadata_dom|].
  pose proof (build_metadata_lookup run passName periodName versionNumber)
    as (Hrun & Hpass & Hperiod & Hversion).
  repeat split; auto using of_string_to_string.
Qed.

Lemma metadata_filter_exact_witness :
  let world := scripted 0 (Normal (10, 20)%N) (Normal (Some sample_flags)) in
  let metadata := build_metadata 42 "apass1" "LHC22o" 3 in
  CallGetSpecific default_ccdbPath 15 metadata
    ∈ calls (invoke world 42 "apass1" "LHC22o" 3 default_ccdbPath).1
  ∧ dom metadata
    = ({["run"; "passName"; "periodName"; "version"]} : gset string)
  ∧ metadata !! "run" = Some "42"
  ∧ metadata !! "passName" = Some "apass1"
  ∧ metadata !! "periodName" = Some "LHC22o"
  ∧ metadata !! "version" = Some "3".
Proof.
  assert (Hlogged :
    CallGetSpecific default_ccdbPath 15
      (build_metadata 42 "apass1" "LHC22o" 3)
    ∈ calls (invoke
               (scripted 0 (Normal (10, 20)%N) (Normal (Some sample_flags)))
               42 "apass1" "LHC22o" 3 default_ccdbPath).1).
  { vm_compute. repeat constructor. }
  split; [exact Hlogged|].
  destruct (metadata_filter_exact _ _ _ _ _ _ _ _ _ Hlogged)
    as (Hdom & Hrun & Hpass & Hperiod & Hversion & _).
  split; [exact Hdom|]. split; [exact Hrun|]. split; [exact Hpass|].
  split; [exact Hperiod | exact Hversion].
Defined.

(** C10. The macro does not validate its inputs. For a negative
    versionNumber, an empty passName or an empty periodName (and a load and
    a run-duration call that succeed) the lookup is made all the same, with
    the values in the filter: the string inputs unchanged, the version as
    its decimal numeral (a minus sign and the digits when negative). No
    rejection or warning exists: the two streams and the way the macro
    ends are those of an invocation with any other pass name, period name
    and version that the store answers alike. *)
Theorem no_input_validation (world : Externals) (run : Z)
    (passName periodName : string) (versionNumber : Z) (ccdbPath : string)
    (soreor : N * N) :
  (versionNumber < 0)%Z ∨ passName = "" ∨ periodName = "" →
  (0 ≤ gSystem_Load world "dict_ccdb.so")%Z →
  getRunDuration world run = Normal soreor →
  let metadata := build_metadata run passName periodName versionNumber in
  let result :=
    invoke world run passName periodName versionNumber ccdbPath in
  calls result.1
  = calls_to_duration run
      ++ [CallGetSpecific ccdbPath (query_timestamp soreor) metadata]
  ∧ metadata !! "passName" = Some passName
  ∧ metadata !! "periodName" = Some periodName
  ∧ metadata !! "version" = Some (to_string versionNumber)
  ∧ ((versionNumber < 0)%Z →
     to_string versionNumber
     = String "-" (to_string_u (Z.to_N (- versionNumber))))
  ∧ ∀ passName' periodName' versionNumber',
      getSpecific world ccdbPath (query_timestamp soreor)
        (build_metadata run passName' periodName' versionNumber')
      = getSpecific world ccdbPath (query_timestamp soreor) metadata →
      let result' :=
        invoke world run passName' periodName' versionNumber' ccdbPath in
      cout result.1 = cout result'.1
      ∧ cerr result.1 = cerr result'.1
      ∧ result.2 = result'.2.
Proof.
  intros _ Hload Hdur metadata result. subst metadata result.
  pose proof (build_metadata_lookup run passName periodName versionNumber)
    as (_ & Hpass & Hperiod & Hversion).
  split; [by apply invoke_calls_lookup|].
  split; [done|]. split; [done|]. split; [done|].
  split; [apply to_string_negative|].
  intros passName' periodName' versionNumber' Hsame result'. subst result'.
  rewrite !(invoke_lookup _ _ _ _ _ _ _ Hload Hdur). cbv zeta.
  rewrite Hsame.
  by destruct (getSpecific world ccdbPath (query_timestamp soreor)
                 (build_metadata run passName periodName versionNumber))
    as [[flags|]|[what|d]].
Qed.

Lemma no_input_validation_witness :
  let world := scripted 0 (Normal (10, 20)%N) (Normal (Some sample_flags)) in
  let result := invoke world 42 "" "" (-3) default_ccdbPath in
  let metadata := build_metadata 42 "" "" (-3) in
  ((-3 < 0)%Z ∨ "" = "" ∨ "" = "")
  ∧ (0 ≤ gSystem_Load world "dict_ccdb.so")%Z
  ∧ getRunDuration world 42 = Normal (10, 20)%N
  ∧ calls result.1
    = calls_to_duration 42 ++ [CallGetSpecific default_ccdbPath 15 metadata]
  ∧ metadata !! "passName" = Some ""
  ∧ metadata !! "periodName" = Some ""
  ∧ metadata !! "version" = Some "-3".
Proof.
  split; [left; lia|]. split; [simpl; lia|]. split; [reflexivity|].
  destruct (no_input_validation
              (scripted 0 (Normal (10, 20)%N) (Normal (Some sample_flags)))
              42 "" "" (-3) default_ccdbPath (10, 20)%N)
    as (Hcalls & Hpass & Hperiod & Hversion & _).
  - left. lia.
  - simpl. lia.
  - reflexivity.
  - split; [exact Hcalls|]. split; [exact Hpass|].
    split; [exact Hperiod | exact Hversion].
Defined.

(** C5, as stated, fails: an exception whose type does not derive from
    [std::exception] is not matched by the handler on line 46. Here the
    lookup throws such an object; the macro ends with it in flight and has
    written no error line. *)
Lemma foreign_exception_escapes :
  let e := ForeignObject "int" in
  let world := scripted 0 (Normal (10, 20)%N) (Raised e) in
  let result := invoke world 42 "apass1" "LHC22o" 1 default_ccdbPath in
  getSpecific world default_ccdbPath (query_timestamp (10, 20)%N)
    (build_metadata 42 "apass1" "LHC22o" 1) = Raised e
  ∧ result.2 = Raised e
  ∧ result.2 ≠ Normal tt
  ∧ cerr result.1 = ""
  ∧ ¬ single_line (cerr result.1).
Proof.
  split; [reflexivity|]. split; [reflexivity|]. split; [by vm_compute|].
  split; [reflexivity|].
  intros Hline. apply single_line_count in Hline. by vm_compute in Hline.
Qed.

(** C5, amended. When the lookup throws an exception derived from
    [std::exception], the macro catches it, writes to the error stream the
    text "Error: Exception occurred while retrieving CCDB object: "
    followed by the exception's message and a line feed (exactly one line
    when the message holds no line feed), writes nothing to the output
    stream and returns normally. *)
Theorem std_exception_caught (world : Externals) (run : Z)
    (passName periodName : string) (versionNumber : Z) (ccdbPath : string)
    (soreor : N * N) (what : string) :
  (0 ≤ gSystem_Load world "dict_ccdb.so")%Z →
  getRunDuration world run = Normal soreor →
  getSpecific world ccdbPath (query_timestamp soreor)
    (build_metadata run passName periodName versionNumber)
  = Raised (StdException what) →
  let result :=
    invoke world run passName periodName versionNumber ccdbPath in
  result.2 = Normal tt
  ∧ cerr result.1 = exception_line what
  ∧ mentions (cerr result.1) what
  ∧ (line_count what = 0 →
     single_line (cerr result.1) ∧ line_count (cerr result.1) = 1)
  ∧ cout result.1 = "".
Proof.
  intros Hload Hdur Hthrow result. subst result.
  rewrite (invoke_lookup _ _ _ _ _ _ _ Hload Hdur), Hthrow.
  cbn [fst snd cout cerr calls].
  split; [done|]. split; [done|]. split; [apply mentions_intro|].
  split; [|done].
  intros Hwhat. split; [by apply single_line_exception|].
  by apply single_line_count, single_line_exception.
Qed.

Lemma std_exception_caught_witness :
  let what := "connection refused" in
  let world :=
    scripted 0 (Normal (10, 20)%N) (Raised (StdException what)) in
  let result := invoke world 42 "apass1" "LHC22o" 1 default_ccdbPath in
  (0 ≤ gSystem_Load world "dict_ccdb.so")%Z
  ∧ getRunDuration world 42 = Normal (10, 20)%N
  ∧ getSpecific world default_ccdbPath (query_timestamp (10, 20)%N)
      (build_metadata 42 "apass1" "LHC22o" 1) = Raised (StdException what)
  ∧ line_count what = 0
  ∧ result.2 = Normal tt
  ∧ cerr result.1 = exception_line what
  ∧ single_line (cerr result.1)
  ∧ cout result.1 = "".
Proof.
  split; [simpl; lia|]. split; [reflexivity|]. split; [reflexivity|].
  split; [reflexivity|].
  destruct (std_exception_caught
              (scripted 0 (Normal (10, 20)%N)
                 (Raised (StdException "connection refused")))
              42 "apass1" "LHC22o" 1 default_ccdbPath (10, 20)%N
              "connection refused")
    as (Hret & Hcerr & _ & Hline & Hcout).
  - simpl. lia.
  - reflexivity.
  - reflexivity.
  - split; [exact Hret|]. split; [exact Hcerr|].
    split; [apply Hline; reflexivity | exact Hcout].
Defined.


(* ===================================================================== *)
(** ** Reading the printed text back *)
(* ===================================================================== *)

Section Separators.

Lemma append_cancel_l (s a b : string) : s +:+ a = s +:+ b → a = b.
Proof.
  induction s as [|c s IH]; [done|].
  rewrite !append_cons. intros [= H]. by apply IH.
Qed.

(** Two texts made of characters of one class, each followed by the same
    character outside the class, can be told apart from what follows. *)
Lemma separator_split (P : ascii → bool) (c : ascii) (s1 s2 r1 r2 : string) :
  all_chars P s1 = true → all_chars P s2 = true → P c = false →
  s1 +:+ String c r1 = s2 +:+ String c r2 → s1 = s2 ∧ r1 = r2.
Proof.
  intros H1 H2 Hc. revert s2 H2.
  induction s1 as [|d1 s1 IH]; intros [|d2 s2] H2; rewrite ?append_cons,
    ?append_nil; intros Heq.
  - by injection Heq as ->.
  - injection Heq as <- _. cbn [all_chars] in H2.
    apply andb_prop in H2 as [Hd _]. congruence.
  - injection Heq as -> _. cbn [all_chars] in H1.
    apply andb_prop in H1 as [Hd _]. congruence.
  - injection Heq as -> Heq. cbn [all_chars] in H1, H2.
    apply andb_prop in H1 as [_ H1]. apply andb_prop in H2 as [_ H2].
    destruct (IH H1 s2 H2 Heq) as [-> ->]. done.
Qed.

Lemma all_numeral_digits (d : Decimal.uint) :
  all_chars is_numeral_char (NilEmpty.string_of_uint d) = true.
Proof. induction d; simpl; auto. Qed.

Lemma all_numeral_to_string_u (n : N) :
  all_chars is_numeral_char (to_string_u n) = true.
Proof.
  unfold to_string_u, NilZero.string_of_uint.
  destruct (N.to_uint n); try reflexivity; apply all_numeral_digits.
Qed.

Lemma all_numeral_to_string (z : Z) :
  all_chars is_numeral_char (to_string z) = true.
Proof.
  unfold to_string, NilZero.string_of_int, NilZero.string_of_uint.
  destruct (Z.to_int z) as [d|d]; destruct d;
    try reflexivity; apply all_numeral_digits.
Qed.

Lemma all_numeral_bitset (w : nat) (v : N) :
  all_chars is_numeral_char (bitset_to_string w v) = true.
Proof.
  induction w as [|w IH]; [done|].
  cbn [bitset_to_string all_chars]. rewrite IH.
  by destruct (N.testbit v (N.of_nat w)).
Qed.

Lemma all_numeral_bitset32 (v : N) :
  all_chars is_numeral_char (bitset32 v) = true.
Proof. apply all_numeral_bitset. Qed.

Lemma to_string_u_inj (a b : N) : to_string_u a = to_string_u b → a = b.
Proof.
  intros E. apply (f_equal of_string_u) in E.
  rewrite !of_string_u_to_string_u in E. congruence.
Qed.

Lemma no_newline_all_chars (s : string) :
  line_count s = 0 → all_chars not_newline s = true.
Proof.
  induction s as [|c s IH]; [done|].
  unfold line_count in *. cbn [count_char all_chars]. unfold not_newline.
  destruct (Ascii.eqb newline c); simpl; [lia | auto].
Qed.

(** The line of an entry tells the entry. *)
Lemma flag_line_inj (e1 e2 : N * N) : flag_line e1 = flag_line e2 → e1 = e2.
Proof.
  destruct e1 as [t1 b1], e2 as [t2 b2]. unfold flag_line. intros H.
  apply append_cancel_l in H.
  change (", Bitmask: " +:+ ?x) with (String "," (" Bitmask: " +:+ x)) in H.
  apply (separator_split is_numeral_char) in H
    as [Ht H]; auto using all_numeral_to_string_u.
  apply to_string_u_inj in Ht. apply append_cancel_l in H.
  change (" (" +:+ ?x) with (String " " ("(" +:+ x)) in H.
  apply (separator_split is_numeral_char) in H
    as [_ H]; auto using all_numeral_bitset32.
  apply append_cancel_l in H.
  change (")" +:+ endl) with (String ")" endl) in H.
  apply (separator_split is_numeral_char) in H
    as [Hb _]; auto using all_numeral_to_string_u.
  apply to_string_u_inj in Hb. congruence.
Qed.

(** The header tells the run. *)
Lemma header_line_inj (r1 r2 : Z) : header_line r1 = header_line r2 → r1 = r2.
Proof.
  unfold header_line. intros H. apply append_cancel_l in H.
  change (":" +:+ endl) with (String ":" endl) in H.
  apply (separator_split is_numeral_char) in H
    as [Hr _]; auto using all_numeral_to_string.
  by apply to_string_inj.
Qed.

(** A stream of complete lines splits into its lines in one way only. *)
Lemma concat_lines_inj (l1 l2 : list string) :
  Forall single_line l1 → Forall single_line l2 →
  concat_lines l1 = concat_lines l2 → l1 = l2.
Proof.
  intros H1. revert l2.
  induction H1 as [|x1 l1 Hx1 _ IH]; intros l2 H2 Heq.
  - destruct H2 as [|x2 l2 Hx2 _]; [done|].
    apply (f_equal line_count) in Heq. cbn [concat_lines] in Heq.
    rewrite line_count_append, (single_line_count _ Hx2) in Heq.
    discriminate.
  - destruct H2 as [|x2 l2 Hx2 H2].
    + apply (f_equal line_count) in Heq. cbn [concat_lines] in Heq.
      rewrite line_count_append, (single_line_count _ Hx1) in Heq.
      discriminate.
    + cbn [concat_lines] in Heq.
      destruct Hx1 as (b1 & -> & Hb1), Hx2 as (b2 & -> & Hb2).
      rewrite !append_assoc in Heq.
      change (endl +:+ ?x) with (String newline x) in Heq.
      apply (separator_split not_newline) in Heq
        as [-> Heq]; auto using no_newline_all_chars.
      f_equal. by apply IH.
Qed.

Lemma map_iteration_inj (m1 m2 : gmap N N) :
  map_iteration m1 = map_iteration m2 → m1 = m2.
Proof.
  intros H. apply map_eq. intros k. apply option_eq. intros v.
  by rewrite <- !map_iteration_elem_of, H.
Qed.

Lemma flag_lines_inj (m1 m2 : gmap N N) :
  flag_lines m1 = flag_lines m2 → m1 = m2.
Proof.
  unfold flag_lines. intros H. apply map_iteration_inj.
  revert H. generalize (map_iteration m1) (map_iteration m2).
  induction l as [|e1 l IH]; intros [|e2 l2] H; try done.
  injection H as He H. apply flag_line_inj in He as ->. f_equal. by apply IH.
Qed.

End Separators.



(* ===================================================================== *)
(** ** Further properties of read_encoded_flags *)
(* ===================================================================== *)

(** X1. For a time window S <= E whose sum fits 64 bits (so for every
    window with both ends below 2^63) the lookup is made at
    floor((S+E)/2), a timestamp inside the window. *)
Theorem lookup_timestamp_inside_window (world : Externals) (run : Z)
    (passName periodName : string) (versionNumber : Z) (ccdbPath : string)
    (S E : N) :
  (S ≤ E)%N → (S + E < UINT64_MODULUS)%N →
  (0 ≤ gSystem_Load world "dict_ccdb.so")%Z →
  getRunDuration world run = Normal (S, E) →
  CallGetSpecific ccdbPath ((S + E) / 2)
    (build_metadata run passName periodName versionNumber)
    ∈ calls (invoke world run passName periodName versionNumber ccdbPath).1
  ∧ (S ≤ (S + E) / 2 ≤ E)%N.
Proof.
  intros Horder Hfit Hload Hdur. split.
  - rewrite (invoke_calls_lookup _ _ _ _ _ _ (S, E) Hload Hdur).
    unfold calls_to_lookup. rewrite (query_timestamp_exact S E Hfit).
    apply elem_of_app. right. apply list_elem_of_singleton. reflexivity.
  - split.
    + apply N.div_le_lower_bound; lia.
    + apply N.Div0.div_le_upper_bound. lia.
Qed.

Lemma lookup_timestamp_inside_window_witness :
  let world := scripted 0 (Normal (10, 21)%N) (Normal None) in
  (10 ≤ 21)%N ∧ (10 + 21 < UINT64_MODULUS)%N
  ∧ (0 ≤ gSystem_Load world "dict_ccdb.so")%Z
  ∧ getRunDuration world 42 = Normal (10, 21)%N
  ∧ CallGetSpecific default_ccdbPath 15 (build_metadata 42 "apass1" "LHC22o" 1)
      ∈ calls (invoke world 42 "apass1" "LHC22o" 1 default_ccdbPath).1
  ∧ (10 ≤ 15 ≤ 21)%N.
Proof.
  split; [lia|]. split; [reflexivity|]. split; [simpl; lia|].
  split; [reflexivity|].
  apply (lookup_timestamp_inside_window
           (scripted 0 (Normal (10, 21)%N) (Normal None))
           42 "apass1" "LHC22o" 1 default_ccdbPath 10 21).
  - lia.
  - reflexivity.
  - simpl. lia.
  - reflexivity.
Defined.

(** X2. For two 64-bit timestamps whose sum reaches 2^64 the query
    timestamp is floor((S+E)/2) - 2^63, which lies strictly before both
    ends of the window. *)
Theorem overflowing_window_queries_before_start (S E : N) :
  is_uint64 S → is_uint64 E → (UINT64_MODULUS ≤ S + E)%N →
  query_timestamp (S, E) = ((S + E) / 2 - 2 ^ 63)%N
  ∧ (query_timestamp (S, E) < S)%N
  ∧ (query_timestamp (S, E) < E)%N.
Proof.
  intros HS HE Hover.
  rewrite (query_timestamp_wrapped S E HS HE Hover).
  unfold is_uint64, UINT64_MODULUS in *.
  assert (Hhalf : ((S + E) / 2 < S + 2 ^ 63 ∧ (S + E) / 2 < E + 2 ^ 63)%N).
  { split; apply N.Div0.div_lt_upper_bound; lia. }
  assert (Hlow : (2 ^ 63 ≤ (S + E) / 2)%N).
  { apply N.div_le_lower_bound; lia. }
  split; [done|]. lia.
Qed.

Lemma overflowing_window_queries_before_start_witness :
  is_uint64 (2 ^ 63 + 5) ∧ is_uint64 (2 ^ 63 + 9)
  ∧ (UINT64_MODULUS ≤ (2 ^ 63 + 5) + (2 ^ 63 + 9))%N
  ∧ query_timestamp (2 ^ 63 + 5, 2 ^ 63 + 9)%N = 7%N
  ∧ (query_timestamp (2 ^ 63 + 5, 2 ^ 63 + 9) < 2 ^ 63 + 5)%N.
Proof.
  split; [reflexivity|]. split; [reflexivity|]. split; [by vm_compute|].
  split; [reflexivity|].
  destruct (overflowing_window_queries_before_start
              (2 ^ 63 + 5) (2 ^ 63 + 9)) as (_ & Hbefore & _).
  - reflexivity.
  - reflexivity.
  - by vm_compute.
  - exact Hbefore.
Defined.

(** X3. Whatever the collaborators answer, a lookup is only ever made at a
    timestamp below 2^63. *)
Theorem lookup_timestamp_below_2_63 (world : Externals) (run : Z)
    (passName periodName : string) (versionNumber : Z) (ccdbPath : string)
    (path : string) (ts : N) (metadata : gmap string string) :
  CallGetSpecific path ts metadata
    ∈ calls (invoke world run passName periodName versionNumber ccdbPath).1 →
  (ts < 2 ^ 63)%N ∧ path = ccdbPath.
Proof.
  intros Hlogged.
  apply invoke_logged_lookup in Hlogged
    as (_ & soreor & _ & -> & -> & _).
  split; [apply query_timestamp_bound | done].
Qed.

Lemma lookup_timestamp_below_2_63_witness :
  let S := (2 ^ 64 - 1)%N in
  let world := scripted 0 (Normal (S, S)) (Normal None) in
  let metadata := build_metadata 42 "apass1" "LHC22o" 1 in
  CallGetSpecific default_ccdbPath (2 ^ 63 - 1) metadata
    ∈ calls (invoke world 42 "apass1" "LHC22o" 1 default_ccdbPath).1
  ∧ (2 ^ 63 - 1 < 2 ^ 63)%N.
Proof.
  assert (Hlogged :
    CallGetSpecific default_ccdbPath (2 ^ 63 - 1)
      (build_metadata 42 "apass1" "LHC22o" 1)
    ∈ calls (invoke
               (scripted 0 (Normal (2 ^ 64 - 1, 2 ^ 64 - 1)%N) (Normal None))
               42 "apass1" "LHC22o" 1 default_ccdbPath).1).
  { vm_compute. repeat constructor. }
  split; [exact Hlogged|].
  exact (proj1 (lookup_timestamp_below_2_63 _ _ _ _ _ _ _ _ _ Hlogged)).
Defined.

(** X4. The external calls of an invocation follow one fixed protocol.
    The load of "dict_ccdb.so" always comes first. The log then stops (the
    load failed), or goes on with [instance()] and [getRunDuration(run)]
    and stops (the duration call threw), or ends with a single lookup at
    the caller's path, the query timestamp and the filter. At most one
    lookup and at most three calls on the manager are made: nothing is
    retried. *)
Theorem call_protocol (world : Externals) (run : Z)
    (passName periodName : string) (versionNumber : Z) (ccdbPath : string) :
  let result :=
    invoke world run passName periodName versionNumber ccdbPath in
  ((gSystem_Load world "dict_ccdb.so" < 0)%Z
   ∧ calls result.1 = [CallLoad "dict_ccdb.so"]
   ∨ (0 ≤ gSystem_Load world "dict_ccdb.so")%Z
     ∧ (∃ e, getRunDuration world run = Raised e)
     ∧ calls result.1 = calls_to_duration run
   ∨ (0 ≤ gSystem_Load world "dict_ccdb.so")%Z
     ∧ ∃ soreor, getRunDuration world run = Normal soreor
         ∧ calls result.1
           = calls_to_duration run
               ++ [CallGetSpecific ccdbPath (query_timestamp soreor)
                     (build_metadata run passName periodName
                        versionNumber)])
  ∧ lookup_count result.1 ≤ 1
  ∧ store_call_count result.1 ≤ 3.
Proof.
  intros result. subst result.
  destruct (Z.lt_ge_cases (gSystem_Load world "dict_ccdb.so") 0)
    as [Hfail|Hload].
  - rewrite invoke_load_failed by done. cbn [fst calls].
    split; [by left|]. unfold lookup_count, store_call_count. simpl. lia.
  - destruct (getRunDuration world run) as [soreor|e] eqn:Hdur.
    + pose proof (invoke_calls_lookup world run passName periodName
                    versionNumber ccdbPath soreor Hload Hdur) as Hcalls.
      unfold lookup_count, store_call_count. rewrite Hcalls.
      split; [|unfold calls_to_lookup; simpl; lia].
      right. right. split; [done|]. by exists soreor.
    + rewrite (invoke_duration_raised _ _ _ _ _ _ e Hload Hdur).
      cbn [fst calls].
      split; [|unfold lookup_count, store_call_count; simpl; lia].
      right. left. split; [done|]. split; [by exists e | done].
Qed.

(** X5. The CCDB manager is left untouched exactly when the load fails:
    an invocation makes no call on the manager if and only if
    [gSystem->Load] returned a negative value. *)
Theorem store_untouched_iff_load_failed (world : Externals) (run : Z)
    (passName periodName : string) (versionNumber : Z) (ccdbPath : string) :
  store_call_count
    (invoke world run passName periodName versionNumber ccdbPath).1 = 0
  ↔ (gSystem_Load world "dict_ccdb.so" < 0)%Z.
Proof.
  destruct (Z.lt_ge_cases (gSystem_Load world "dict_ccdb.so") 0)
    as [Hfail|Hload].
  - rewrite invoke_load_failed by done. by split.
  - split; [|lia]. unfold store_call_count.
    destruct (getRunDuration world run) as [soreor|e] eqn:Hdur.
    + rewrite (invoke_calls_lookup _ _ _ _ _ _ soreor Hload Hdur).
      unfold calls_to_lookup. simpl. lia.
    + rewrite (invoke_duration_raised _ _ _ _ _ _ e Hload Hdur).
      simpl. lia.
Qed.

(** X6. The two streams are never both written, and text on the output
    stream means success: the output stream is non-empty if and only if the
    load succeeded, the duration call returned and the lookup returned an
    object; and whenever the output stream is non-empty the macro returned
    normally with an empty error stream. *)
Theorem output_means_success (world : Externals) (run : Z)
    (passName periodName : string) (versionNumber : Z) (ccdbPath : string) :
  let result :=
    invoke world run passName periodName versionNumber ccdbPath in
  (cout result.1 = "" ∨ cerr result.1 = "")
  ∧ (cout result.1 ≠ ""
     ↔ (0 ≤ gSystem_Load world "dict_ccdb.so")%Z
       ∧ ∃ soreor flags,
           getRunDuration world run = Normal soreor
           ∧ getSpecific world ccdbPath (query_timestamp soreor)
               (build_metadata run passName periodName versionNumber)
             = Normal (Some flags))
  ∧ (cout result.1 ≠ "" → result.2 = Normal tt ∧ cerr result.1 = "").
Proof.
  intros result. subst result.
  destruct (Z.lt_ge_cases (gSystem_Load world "dict_ccdb.so") 0)
    as [Hfail|Hload].
  - rewrite invoke_load_failed by done. cbn [fst snd cout cerr].
    split; [by left|]. split; [|done]. split; [done|].
    intros [Hload _]. lia.
  - destruct (getRunDuration world run) as [soreor|e] eqn:Hdur.
    + rewrite (invoke_lookup _ _ _ _ _ _ _ Hload Hdur). cbv zeta.
      destruct (getSpecific world ccdbPath (query_timestamp soreor)
                  (build_metadata run passName periodName versionNumber))
        as [[flags|]|[what|d]] eqn:Hlookup; cbn [fst snd cout cerr];
        (split; [auto|]).
      * split; [|done]. split.
        -- intros _. split; [done|]. by exists soreor, flags.
        -- intros _. unfold header_line. discriminate.
      * split; [|done]. split; [done|].
        intros (_ & s & f & [= <-] & Hf). congruence.
      * split; [|done]. split; [done|].
        intros (_ & s & f & [= <-] & Hf). congruence.
      * split; [|done]. split; [done|].
        intros (_ & s & f & [= <-] & Hf). congruence.
    + rewrite (invoke_duration_raised _ _ _ _ _ _ e Hload Hdur).
      cbn [fst snd cout cerr]. split; [by left|]. split; [|done].
      split; [done|]. intros (_ & s & f & Hs & _). discriminate.
Qed.

Lemma output_means_success_witness :
  let world := scripted 0 (Normal (10, 20)%N) (Normal (Some ∅)) in
  let result := invoke world 42 "apass1" "LHC22o" 1 default_ccdbPath in
  (0 ≤ gSystem_Load world "dict_ccdb.so")%Z
  ∧ getRunDuration world 42 = Normal (10, 20)%N
  ∧ getSpecific world default_ccdbPath (query_timestamp (10, 20)%N)
      (build_metadata 42 "apass1" "LHC22o" 1) = Normal (Some ∅)
  ∧ cout result.1 ≠ ""
  ∧ result.2 = Normal tt
  ∧ cerr result.1 = "".
Proof.
  split; [simpl; lia|]. split; [reflexivity|]. split; [reflexivity|].
  destruct (output_means_success
              (scripted 0 (Normal (10, 20)%N) (Normal (Some ∅)))
              42 "apass1" "LHC22o" 1 default_ccdbPath)
    as (_ & Hiff & Hsuccess).
  assert (Hout :
    cout (invoke (scripted 0 (Normal (10, 20)%N) (Normal (Some ∅)))
            42 "apass1" "LHC22o" 1 default_ccdbPath).1 ≠ "").
  { apply Hiff. split; [simpl; lia|].
    exists (10, 20)%N, ∅. split; reflexivity. }
  split; [exact Hout | exact (Hsuccess Hout)].
Defined.

(** X7. When the lookup throws an object whose type does not derive from
    [std::exception], the handler of line 46 does not match: the invocation
    ends with that object in flight, nothing is written to either stream,
    and the lookup was the last call made. *)
Theorem foreign_exception_propagates (world : Externals) (run : Z)
    (passName periodName : string) (versionNumber : Z) (ccdbPath : string)
    (soreor : N * N) (d : string) :
  (0 ≤ gSystem_Load world "dict_ccdb.so")%Z →
  getRunDuration world run = Normal soreor →
  getSpecific world ccdbPath (query_timestamp soreor)
    (build_metadata run passName periodName versionNumber)
  = Raised (ForeignObject d) →
  let result :=
    invoke world run passName periodName versionNumber ccdbPath in
  result.2 = Raised (ForeignObject d)
  ∧ cout result.1 = ""
  ∧ cerr result.1 = ""
  ∧ calls result.1
    = calls_to_lookup run passName periodName versionNumber ccdbPath soreor.
Proof.
  intros Hload Hdur Hthrow result. subst result.
  rewrite (invoke_lookup _ _ _ _ _ _ _ Hload Hdur), Hthrow.
  cbn [fst snd cout cerr calls]. by repeat split.
Qed.

Lemma foreign_exception_propagates_witness :
  let world :=
    scripted 0 (Normal (10, 20)%N) (Raised (ForeignObject "const char*")) in
  let result := invoke world 42 "apass1" "LHC22o" 1 default_ccdbPath in
  (0 ≤ gSystem_Load world "dict_ccdb.so")%Z
  ∧ getRunDuration world 42 = Normal (10, 20)%N
  ∧ getSpecific world default_ccdbPath (query_timestamp (10, 20)%N)
      (build_metadata 42 "apass1" "LHC22o" 1)
    = Raised (ForeignObject "const char*")
  ∧ result.2 = Raised (ForeignObject "const char*")
  ∧ cout result.1 = ""
  ∧ cerr result.1 = ""
  ∧ calls result.1
    = calls_to_lookup 42 "apass1" "LHC22o" 1 default_ccdbPath (10, 20)%N.
Proof.
  split; [simpl; lia|]. split; [reflexivity|]. split; [reflexivity|].
  apply (foreign_exception_propagates
           (scripted 0 (Normal (10, 20)%N)
              (Raised (ForeignObject "const char*")))
           42 "apass1" "LHC22o" 1 default_ccdbPath (10, 20)%N "const char*").
  - simpl. lia.
  - reflexivity.
  - reflexivity.
Defined.

(** X8. The message of a caught exception goes to the error stream as it
    is, line feeds included: the report spans one line more than the
    message has line feeds, so a message of several lines gives a report of
    several lines. *)
Theorem exception_report_line_count (world : Externals) (run : Z)
    (passName periodName : string) (versionNumber : Z) (ccdbPath : string)
    (soreor : N * N) (what : string) :
  (0 ≤ gSystem_Load world "dict_ccdb.so")%Z →
  getRunDuration world run = Normal soreor →
  getSpecific world ccdbPath (query_timestamp soreor)
    (build_metadata run passName periodName versionNumber)
  = Raised (StdException what) →
  line_count
    (cerr (invoke world run passName periodName versionNumber ccdbPath).1)
  = S (line_count what).
Proof.
  intros Hload Hdur Hthrow.
  rewrite (invoke_lookup _ _ _ _ _ _ _ Hload Hdur), Hthrow.
  cbn [fst cerr]. unfold exception_line.
  rewrite !line_count_append, line_count_endl.
  change (line_count
            "Error: Exception occurred while retrieving CCDB object: ")
    with 0.
  lia.
Qed.

Lemma exception_report_line_count_witness :
  let what := "curl error" +:+ endl +:+ "host unreachable" in
  let world :=
    scripted 0 (Normal (10, 20)%N) (Raised (StdException what)) in
  (0 ≤ gSystem_Load world "dict_ccdb.so")%Z
  ∧ getRunDuration world 42 = Normal (10, 20)%N
  ∧ getSpecific world default_ccdbPath (query_timestamp (10, 20)%N)
      (build_metadata 42 "apass1" "LHC22o" 1) = Raised (StdException what)
  ∧ line_count what = 1
  ∧ line_count
      (cerr (invoke world 42 "apass1" "LHC22o" 1 default_ccdbPath).1)
    = 2.
Proof.
  split; [simpl; lia|]. split; [reflexivity|]. split; [reflexivity|].
  split; [reflexivity|].
  apply (exception_report_line_count
           (scripted 0 (Normal (10, 20)%N)
              (Raised
                 (StdException
                    ("curl error" +:+ endl +:+ "host unreachable"))))
           42 "apass1" "LHC22o" 1 default_ccdbPath (10, 20)%N
           ("curl error" +:+ endl +:+ "host unreachable")).
  - simpl. lia.
  - reflexivity.
  - reflexivity.
Defined.

(** X9. The text on the output stream tells the run and the mapping: two
    successful invocations that print the same text were made for the same
    run number and retrieved the same mapping. *)
Theorem output_determines_run_and_mapping (world world' : Externals)
    (run run' : Z) (passName periodName passName' periodName' : string)
    (versionNumber versionNumber' : Z) (ccdbPath ccdbPath' : string)
    (soreor soreor' : N * N) (flags flags' : gmap N N) :
  (0 ≤ gSystem_Load world "dict_ccdb.so")%Z →
  getRunDuration world run = Normal soreor →
  getSpecific world ccdbPath (query_timestamp soreor)
    (build_metadata run passName periodName versionNumber)
  = Normal (Some flags) →
  (0 ≤ gSystem_Load world' "dict_ccdb.so")%Z →
  getRunDuration world' run' = Normal soreor' →
  getSpecific world' ccdbPath' (query_timestamp soreor')
    (build_metadata run' passName' periodName' versionNumber')
  = Normal (Some flags') →
  cout (invoke world run passName periodName versionNumber ccdbPath).1
  = cout (invoke world' run' passName' periodName' versionNumber'
            ccdbPath').1 →
  run = run' ∧ flags = flags'.
Proof.
  intros Hload Hdur Hfound Hload' Hdur' Hfound'.
  rewrite (invoke_lookup _ _ _ _ _ _ _ Hload Hdur), Hfound.
  rewrite (invoke_lookup _ _ _ _ _ _ _ Hload' Hdur'), Hfound'.
  cbn [fst cout]. intros Hsame.
  assert (Hlines :
    header_line run :: flag_lines flags
    = header_line run' :: flag_lines flags').
  { apply concat_lines_inj.
    - constructor; [apply single_line_header | apply flag_lines_single].
    - constructor; [apply single_line_header | apply flag_lines_single].
    - exact Hsame. }
  split.
  - apply header_line_inj.
    exact (f_equal (λ l, default "" (head l)) Hlines).
  - apply flag_lines_inj. exact (f_equal tail Hlines).
Qed.

Lemma output_determines_run_and_mapping_witness :
  let world := scripted 0 (Normal (10, 20)%N) (Normal (Some sample_flags)) in
  let world' := scripted 1 (Normal (30, 50)%N) (Normal (Some sample_flags)) in
  cout (invoke world 42 "apass1" "LHC22o" 1 default_ccdbPath).1
  = cout (invoke world' 42 "apass2" "LHC22m" 7 "Users/x/RCT").1
  ∧ (42 = 42)%Z ∧ sample_flags = sample_flags.
Proof.
  split; [reflexivity|].
  apply (output_determines_run_and_mapping
           (scripted 0 (Normal (10, 20)%N) (Normal (Some sample_flags)))
           (scripted 1 (Normal (30, 50)%N) (Normal (Some sample_flags)))
           42 42 "apass1" "LHC22o" "apass2" "LHC22m" 1 7
           default_ccdbPath "Users/x/RCT" (10, 20)%N (30, 50)%N
           sample_flags sample_flags).
  - simpl. lia.
  - reflexivity.
  - reflexivity.
  - simpl. lia.
  - reflexivity.
  - reflexivity.
  - reflexivity.
Defined.

(** X10. Entries of a mapping never share a flag line: the lines printed
    for a mapping are pairwise distinct, and entries whose timestamps or
    bitmasks differ print different lines. *)
Theorem flag_lines_distinct (flags : gmap N N) :
  NoDup (flag_lines flags)
  ∧ ∀ entry entry', entry ≠ entry' → flag_line entry ≠ flag_line entry'.
Proof.
  split.
  - unfold flag_lines. apply NoDup_fmap_2_strong.
    + intros e1 e2 _ _. apply flag_line_inj.
    + apply map_iteration_NoDup.
  - intros entry entry' Hne Heq. by apply Hne, flag_line_inj.
Qed.

(** X12. The three error reports cannot be mistaken for one another, nor
    for silence: whatever the run number and the exception message, the
    load report, the not-found report and the exception report are
    pairwise different texts and none is empty. *)
Theorem failure_reports_distinct (run : Z) (what : string) :
  load_error_line ≠ not_found_line run
  ∧ load_error_line ≠ exception_line what
  ∧ not_found_line run ≠ exception_line what
  ∧ load_error_line ≠ ""
  ∧ not_found_line run ≠ ""
  ∧ exception_line what ≠ "".
Proof.
  unfold load_error_line, not_found_line, exception_line.
  repeat split; discriminate.
Qed.

(** X13. The not-found report tells the run: reports written for different
    run numbers are different texts. *)
Theorem not_found_report_identifies_run (run run' : Z) :
  not_found_line run = not_found_line run' → run = run'.
Proof.
  unfold not_found_line. intros H. apply append_cancel_l in H.
  change (" from CCDB." +:+ endl) with (String " " ("from CCDB." +:+ endl))
    in H.
  apply (separator_split is_numeral_char) in H
    as [Hr _]; auto using all_numeral_to_string.
  by apply to_string_inj.
Qed.

Lemma not_found_report_identifies_run_witness :
  not_found_line 42 = not_found_line (40 + 2) ∧ (42 = 40 + 2)%Z.
Proof.
  split; [reflexivity|].
  apply (not_found_report_identifies_run 42 (40 + 2)). reflexivity.
Defined.
